(** * RC_BuildingSimulator: the 5R1C kernel of [5R1C_ISO_simulator/physics.py]

    A shallow embedding of the module's functions and the properties of
    the zone model checked against them.

    Modelling conventions.
    - Python numbers are floats taken as exact rationals ([Q]); [/] is
      true division and raises [ZeroDivisionError] on a zero divisor.
      Which exception is raised, and which solver evaluations are made,
      does not depend on rounding; the value of a result does, so a
      statement about values is one about exact arithmetic.  Where
      rounding decides, the formula is also given on binary64 floats
      (module [Binary64]).
    - A Python value is a number or [None]; arithmetic on [None] raises
      [TypeError], and so does calling a number or [None].  Ordering
      comparisons with [None] depend on the Python dialect, which is a
      parameter of the resolver.
    - Expressions are evaluated left to right, so the exception that
      surfaces is the first one Python would raise.
    - The solver is pure; the resolver layer records every solver
      invocation and every [print] in an event trace. *)

From Stdlib Require Import PrimFloat.
From Stdlib Require Import Arith QArith Qminmax Lqa List String Bool Lia.
Import ListNotations.

Local Open Scope Q_scope.

(** ** Python values, exceptions and the error monad *)

Module Py.

(** Exceptions.  [TypeError] and [ZeroDivisionError] are the built-in ones
    the module can raise.  The remaining constructors are the error names
    of the design document; no statement of the source raises them. *)
Inductive exn : Type :=
| TypeError
| ZeroDivisionError
| InvalidParameters
| InvalidPower
| DegenerateNetwork
| MissingSetpoint
| MissingCapacity.

Inductive result (A : Type) : Type :=
| Ret (a : A)
| Raise (e : exn).

Arguments Ret {A} a.
Arguments Raise {A} e.

Definition bind {A B : Type} (r : result A) (k : A -> result B) : result B :=
  match r with
  | Ret a => k a
  | Raise e => Raise e
  end.

Inductive value : Type :=
| VNone
| VNum (q : Q).

Definition add (a b : value) : result value :=
  match a, b with
  | VNum x, VNum y => Ret (VNum (x + y))
  | _, _ => Raise TypeError
  end.

Definition sub (a b : value) : result value :=
  match a, b with
  | VNum x, VNum y => Ret (VNum (x - y))
  | _, _ => Raise TypeError
  end.

Definition mul (a b : value) : result value :=
  match a, b with
  | VNum x, VNum y => Ret (VNum (x * y))
  | _, _ => Raise TypeError
  end.

Definition div (a b : value) : result value :=
  match a, b with
  | VNum x, VNum y =>
      if Qeq_bool y 0 then Raise ZeroDivisionError else Ret (VNum (x / y))
  | _, _ => Raise TypeError
  end.

(** [f(arg)] where [f] is a number or [None]: not callable. *)
Definition call (f arg : value) : result value := Raise TypeError.

(** The source does not say which Python it is written for, and the two
    differ on ordering comparisons with [None]: Python 3 raises
    [TypeError], Python 2 orders [None] below every number. *)
Inductive dialect : Type :=
| Python2
| Python3.

Definition none_order (d : dialect) (b : bool) : result bool :=
  match d with
  | Python2 => Ret b
  | Python3 => Raise TypeError
  end.

Definition le (d : dialect) (a b : value) : result bool :=
  match a, b with
  | VNum x, VNum y => Ret (Qle_bool x y)
  | VNone, _ => none_order d true
  | VNum _, VNone => none_order d false
  end.

Definition lt (d : dialect) (a b : value) : result bool :=
  match a, b with
  | VNum x, VNum y => Ret (negb (Qle_bool y x))
  | VNone, VNum _ => none_order d true
  | _, VNone => none_order d false
  end.

Definition ge (d : dialect) (a b : value) : result bool := le d b a.
Definition gt (d : dialect) (a b : value) : result bool := lt d b a.

(** Truth value of what a demand check returns: [True], [False], or
    [None] when control falls off the end of the function. *)
Definition truthy (v : option bool) : bool :=
  match v with
  | Some b => b
  | None => false
  end.

(** Lifting of the binary operators to computations: the left operand is
    evaluated first, then the right one, then the operator is applied. *)
Definition lift2 {A : Type} (op : value -> value -> result A)
    (l r : result value) : result A :=
  bind l (fun a => bind r (fun b => op a b)).

End Py.

Import Py.

Declare Scope py_scope.
Delimit Scope py_scope with py.

Notation "x <- e ;; k" := (bind e (fun x => k))
  (at level 61, e at next level, right associativity) : py_scope.
(** A variable or a literal, as an expression that evaluates to itself. *)
Definition eval (v : value) : result value := Ret v.
Coercion eval : value >-> result.
Infix "+" := (lift2 add) : py_scope.
Infix "-" := (lift2 sub) : py_scope.
Infix "*" := (lift2 mul) : py_scope.
Infix "/" := (lift2 div) : py_scope.
Notation "f @( a )" := (lift2 call f a) (at level 1, a at level 200) : py_scope.

(** ** The RC-network formulas (ISO 13790, C.4 to C.12) *)

Section Formulas.

Local Open Scope py_scope.

(** [physics.py], line 56.  The source applies [theta_m_prev] to the
    bracketed term: there is no operator between the name and the
    parenthesis. *)
Definition calc_theta_m_t (theta_m_prev c_m h_tr_3 h_tr_em phi_m_tot : value)
  : result value :=
  (theta_m_prev @( (c_m / VNum 3600) - VNum 0.5 * (h_tr_3 + h_tr_em) ))
  + phi_m_tot / ((c_m / VNum 3600) + VNum 0.5 * (h_tr_3 + h_tr_em)).

(** [physics.py], line 65. *)
Definition calc_phi_m_tot
    (phi_m h_tr_em theta_e h_tr_3 phi_st h_tr_w h_tr_1 phi_ia phi_hc_nd
     h_ve_adj h_tr_2 : value) : result value :=
  phi_m + h_tr_em * theta_e +
  h_tr_3 * (phi_st + h_tr_w * theta_e
             + h_tr_1 * (((phi_ia + phi_hc_nd) / h_ve_adj) + theta_e))
  / h_tr_2.

(** [physics.py], line 77. *)
Definition calc_h_tr_1 (h_ve_adj h_tr_is : value) : result value :=
  VNum 1 / (VNum 1 / h_ve_adj + VNum 1 / h_tr_is).

(** [physics.py], line 86. *)
Definition calc_h_tr_2 (h_tr_1 h_tr_w : value) : result value :=
  h_tr_1 + h_tr_w.

(** [physics.py], line 95. *)
Definition calc_h_tr_3 (h_tr_2 h_tr_ms : value) : result value :=
  VNum 1 / (VNum 1 / h_tr_2 + VNum 1 / h_tr_ms).

(** [physics.py], line 104. *)
Definition calc_theta_m (theta_m_t theta_m_prev : value) : result value :=
  (theta_m_t + theta_m_prev) / VNum 2.

(** [physics.py], line 112. *)
Definition calc_theta_s
    (h_tr_ms theta_m phi_st h_tr_w theta_e h_tr_1 phi_ia phi_hc_nd
     h_ve_adj : value) : result value :=
  (h_tr_ms * theta_m + phi_st + h_tr_w * theta_e
   + h_tr_1 * (theta_e + (phi_ia + phi_hc_nd) / h_ve_adj))
  / (h_tr_ms + h_tr_w + h_tr_1).

(** [physics.py], line 122. *)
Definition calc_theta_air
    (h_tr_is theta_s h_ve_adj theta_e phi_ia phi_hc_nd : value)
  : result value :=
  (h_tr_is * theta_s + h_ve_adj * theta_e + phi_ia + phi_hc_nd)
  / (h_tr_is + h_ve_adj).

(** [physics.py], line 130. *)
Definition calc_theta_op (theta_air theta_s : value) : result value :=
  VNum 0.3 * theta_air + VNum 0.7 * theta_s.

End Formulas.

(** The operative temperature on IEEE 754 binary64 numbers, the floats of
    Python: the literals [0.3] and [0.7] are the doubles nearest to 3/10
    and 7/10, and each product and the sum are rounded to nearest. *)
Module Binary64.

#[warnings="-inexact-float"]
Definition calc_theta_op (theta_air theta_s : float) : float :=
  (0.3 * theta_air + 0.7 * theta_s)%float.

End Binary64.

(** ** The RC-network solver *)

(** The attributes of [building_thermal_prop] that the solver reads
    ([physics.py], lines 144 to 157).  The derived conductances [h_tr_1],
    [h_tr_2], [h_tr_3] are attributes of the object: the solver reads
    them, it does not recompute them. *)
Record BuildingThermalProp : Type := {
  phi_m : Q;
  h_tr_em : Q;
  theta_e : Q;
  h_tr_3 : Q;
  phi_st : Q;
  h_tr_w : Q;
  h_tr_1 : Q;
  phi_ia : Q;
  h_ve_adj : Q;
  h_tr_2 : Q;
  theta_m_prev : Q;
  c_m : Q;
  h_tr_ms : Q;
  h_tr_is : Q
}.

(** The triple [theta_m_t, theta_air, theta_op] and its indexing. *)
Definition temperatures : Type := (value * value * value)%type.

Definition item0 (t : temperatures) : value := fst (fst t).
Definition item1 (t : temperatures) : value := snd (fst t).
Definition item2 (t : temperatures) : value := snd t.

Section Solver.

Local Open Scope py_scope.

(** [physics.py], line 138. *)
Definition calc_temperatures_crank_nicholson
    (phi_hc_nd : value) (building_thermal_prop : BuildingThermalProp)
  : result temperatures :=
  let phi_m := VNum (phi_m building_thermal_prop) in
  let h_tr_em := VNum (h_tr_em building_thermal_prop) in
  let theta_e := VNum (theta_e building_thermal_prop) in
  let h_tr_3 := VNum (h_tr_3 building_thermal_prop) in
  let phi_st := VNum (phi_st building_thermal_prop) in
  let h_tr_w := VNum (h_tr_w building_thermal_prop) in
  let h_tr_1 := VNum (h_tr_1 building_thermal_prop) in
  let phi_ia := VNum (phi_ia building_thermal_prop) in
  let h_ve_adj := VNum (h_ve_adj building_thermal_prop) in
  let h_tr_2 := VNum (h_tr_2 building_thermal_prop) in
  let theta_m_prev := VNum (theta_m_prev building_thermal_prop) in
  let c_m := VNum (c_m building_thermal_prop) in
  let h_tr_ms := VNum (h_tr_ms building_thermal_prop) in
  let h_tr_is := VNum (h_tr_is building_thermal_prop) in
  phi_m_tot <- calc_phi_m_tot phi_m h_tr_em theta_e h_tr_3 phi_st h_tr_w
                 h_tr_1 phi_ia phi_hc_nd h_ve_adj h_tr_2 ;;
  theta_m_t <- calc_theta_m_t theta_m_prev c_m h_tr_3 h_tr_em phi_m_tot ;;
  theta_m <- calc_theta_m theta_m_t theta_m_prev ;;
  theta_s <- calc_theta_s h_tr_ms theta_m phi_st h_tr_w theta_e h_tr_1
               phi_ia phi_hc_nd h_ve_adj ;;
  theta_air <- calc_theta_air h_tr_is theta_s h_ve_adj theta_e phi_ia
                 phi_hc_nd ;;
  theta_op <- calc_theta_op theta_air theta_s ;;
  Ret (theta_m_t, theta_air, theta_op).

(** [physics.py], line 218. *)
Definition calc_phi_hc_nd_un
    (phi_hc_nd_10 theta_air_set theta_air_0 theta_air_10 : value)
  : result value :=
  phi_hc_nd_10 * (theta_air_set - theta_air_0) / (theta_air_10 - theta_air_0).

End Solver.

(** ** The demand and capacity resolver *)

(** What a run of the resolver does besides computing: it invokes the
    solver at some power, or prints a message. *)
Inductive event : Type :=
| Solve (phi_hc_nd : value)
| Print (msg : string).

(** A resolver computation: the events it emitted, in order, and its
    outcome.  An exception keeps the events emitted before it. *)
Definition M (A : Type) : Type := (list event * result A)%type.

Definition ret {A : Type} (a : A) : M A := ([], Ret a).

Definition bindM {A B : Type} (m : M A) (k : A -> M B) : M B :=
  match m with
  | (tr, Ret a) => let (tr', r) := k a in (tr ++ tr', r)
  | (tr, Raise e) => (tr, Raise e)
  end.

Definition pure {A : Type} (r : result A) : M A := ([], r).

Definition print (msg : string) : M unit := ([Print msg], Ret tt).

Definition events {A : Type} (m : M A) : list event := fst m.
Definition outcome {A : Type} (m : M A) : result A := snd m.

(** The powers at which the solver was invoked, in order. *)
Fixpoint solver_calls (tr : list event) : list value :=
  match tr with
  | [] => []
  | Solve p :: tr' => p :: solver_calls tr'
  | Print _ :: tr' => solver_calls tr'
  end.

(** The solver invocations of a computation, and their number. *)
Definition calls {A : Type} (m : M A) : list value :=
  solver_calls (events m).

Definition evaluations {A : Type} (m : M A) : nat :=
  List.length (calls m).

Declare Scope resolver_scope.
Delimit Scope resolver_scope with resolver.

Notation "x <- e ;; k" := (bindM e (fun x => k))
  (at level 61, e at next level, right associativity) : resolver_scope.
Notation "e ;; k" := (bindM e (fun _ => k))
  (at level 61, right associativity) : resolver_scope.

(** Modelled from the spec: the type of the [setpoints] argument is not
    declared in the module; the design document gives it the two fields
    below.  [VNone] stands for an absent setpoint. *)
Record Setpoints : Type := {
  theta_heat_set : value;
  theta_cool_set : value
}.

(** Modelled from the spec: the [control] collaborator.  The module calls
    [control.is_heating_active] and its siblings but neither defines nor
    imports [control]; it is taken as a parameter, with the boolean
    queries of the design document. *)
Record Control (Hoy Bpr : Type) : Type := {
  is_heating_active : Hoy -> Bpr -> bool;
  heating_system_is_ac : Bpr -> bool;
  heating_system_is_radiative : Bpr -> bool;
  is_cooling_active : Hoy -> Bpr -> bool;
  cooling_system_is_ac : Bpr -> bool;
  cooling_system_is_radiative : Bpr -> bool
}.

Arguments is_heating_active {Hoy Bpr} _ _ _.
Arguments heating_system_is_ac {Hoy Bpr} _ _.
Arguments heating_system_is_radiative {Hoy Bpr} _ _.
Arguments is_cooling_active {Hoy Bpr} _ _ _.
Arguments cooling_system_is_ac {Hoy Bpr} _ _.
Arguments cooling_system_is_radiative {Hoy Bpr} _ _.

(** The resolver functions call the solver through the module's global
    name.  They are written here over the function that name is bound to,
    [rc_model]; below the section they are instantiated with
    [calc_temperatures_crank_nicholson]. *)
Module Resolver.
Section WithSolver.

Variable py : dialect.
Variable rc_model : value -> BuildingThermalProp -> result temperatures.

Local Open Scope resolver_scope.

(** One solver invocation, recorded in the trace. *)
Definition solve (phi_hc_nd : value) (bp : BuildingThermalProp)
  : M temperatures :=
  ([Solve phi_hc_nd], rc_model phi_hc_nd bp).

(** [physics.py], line 178.  The [setpoints] argument is not read; the
    setpoint is the literal [None]. *)
Definition has_heating_demand
    (building_thermal_prop : BuildingThermalProp) (setpoints : Setpoints)
  : M (option bool) :=
  let theta_int_h_set := VNone in
  let phi_hc_nd := VNum 0 in
  temp <- solve phi_hc_nd building_thermal_prop ;;
  let theta_air := item1 temp in
  c <- pure (le py theta_int_h_set theta_air) ;;
  if c then ret (Some false)
  else
    c' <- pure (lt py theta_air theta_int_h_set) ;;
    if c' then ret (Some true) else ret None.

(** [physics.py], line 198. *)
Definition has_cooling_demand
    (building_thermal_prop : BuildingThermalProp) (setpoints : Setpoints)
  : M (option bool) :=
  let theta_int_c_set := VNone in
  let phi_hc_nd := VNum 0 in
  temp <- solve phi_hc_nd building_thermal_prop ;;
  let theta_air := item1 temp in
  c <- pure (ge py theta_int_c_set theta_air) ;;
  if c then ret (Some false)
  else
    c' <- pure (gt py theta_air theta_int_c_set) ;;
    if c' then ret (Some true) else ret None.

(** [physics.py], lines 253 to 270: the choice of the delivered power.
    [a <= b <= c] is [a <= b and b <= c]. *)
Definition clamp_phi_hc_nd (phi_c_max phi_hc_nd_un phi_h_max : value)
  : M value :=
  c1 <- pure (le py phi_c_max phi_hc_nd_un) ;;
  c2 <- (if c1 : bool then pure (le py phi_hc_nd_un phi_h_max) else ret false) ;;
  if c2 : bool then ret phi_hc_nd_un
  else
    c3 <- pure (gt py phi_hc_nd_un phi_h_max) ;;
    if c3 : bool then ret phi_h_max
    else
      c4 <- pure (lt py phi_hc_nd_un phi_c_max) ;;
      if c4 : bool then ret phi_c_max
      else
        print "ERROR: unknown radiative heating/cooling system status" ;;
        ret (VNum 0).

(** [physics.py], line 228. *)
Definition calc_phi_hc_ac (building_thermal_prop : BuildingThermalProp)
  : M (value * value * value * value) :=
  (* Step 1 *)
  let phi_hc_nd_0 := VNum 0 in
  temp_rc_0 <- solve phi_hc_nd_0 building_thermal_prop ;;
  let theta_air_0 := item1 temp_rc_0 in
  (* Step 2 *)
  let theta_int_set := VNum 20 in
  let af := VNum 100 in
  let theta_air_set := theta_int_set in
  phi_hc_nd_10 <- pure (VNum 10 * af)%py ;;
  temp_rc_10 <- solve phi_hc_nd_10 building_thermal_prop ;;
  let theta_air_10 := item1 temp_rc_10 in
  phi_hc_nd_un <- pure (calc_phi_hc_nd_un phi_hc_nd_10 theta_air_set
                          theta_air_0 theta_air_10) ;;
  (* Step 3 and Step 4 *)
  let phi_c_max := VNum 100 in
  let phi_h_max := VNum 100 in
  phi_hc_nd_ac <- clamp_phi_hc_nd phi_c_max phi_hc_nd_un phi_h_max ;;
  temp_ac <- solve phi_hc_nd_ac building_thermal_prop ;;
  let theta_m_t_ac := item0 temp_ac in
  let theta_air_ac := item1 temp_ac in
  let theta_op_ac := item2 temp_ac in
  ret (theta_m_t_ac, theta_air_ac, theta_op_ac, phi_hc_nd_ac).

Section WithControl.

Context {Hoy Bpr : Type}.
Variable control : Control Hoy Bpr.

(** [physics.py], lines 327 to 444: the demand check and the branches of
    [procedure_1].  The two [elif] branches for air-conditioning systems
    hold only comments in the source, where Python requires a statement;
    they are modelled as doing nothing.
    The temperatures computed in a branch are bound to local names and
    dropped: every path ends in a bare [return]. *)
Definition procedure_1_branches
    (hoy : Hoy) (bpr : Bpr) (building_thermal_prop : BuildingThermalProp)
    (setpoints : Setpoints) : M unit :=
  no_heat <- (h <- has_heating_demand building_thermal_prop setpoints ;;
              ret (negb (truthy h))) ;;
  no_demand <- (if no_heat : bool
                then c <- has_cooling_demand building_thermal_prop setpoints ;;
                     ret (negb (truthy c))
                else ret false) ;;
  if no_demand : bool then
    let phi_hc_nd := VNum 0 in
    temp_rc <- solve phi_hc_nd building_thermal_prop ;;
    ret tt
  else
    h <- has_heating_demand building_thermal_prop setpoints ;;
    if truthy h then
      if negb (is_heating_active control hoy bpr) then
        let phi_hc_nd := VNum 0 in
        temp_rc <- solve phi_hc_nd building_thermal_prop ;;
        ret tt
      else if is_heating_active control hoy bpr
              && heating_system_is_ac control bpr then
        ret tt
      else if is_heating_active control hoy bpr
              && heating_system_is_radiative control bpr then
        ac <- calc_phi_hc_ac building_thermal_prop ;;
        ret tt
      else ret tt
    else
      c <- has_cooling_demand building_thermal_prop setpoints ;;
      if truthy c then
        if negb (is_cooling_active control hoy bpr) then
          let phi_hc_nd := VNum 0 in
          temp_rc <- solve phi_hc_nd building_thermal_prop ;;
          ret tt
        else if is_cooling_active control hoy bpr
                && cooling_system_is_ac control bpr then
          ret tt
        else if is_cooling_active control hoy bpr
                && cooling_system_is_radiative control bpr then
          ac <- calc_phi_hc_ac building_thermal_prop ;;
          ret tt
        else ret tt
      else
        print "Error: Unknown HVAC system status" ;;
        ret tt.

(** [physics.py], line 287.  The thermal properties are bound to [None]
    (lines 291 to 319) before the derived conductances are computed from
    them (lines 321 to 323). *)
Definition procedure_1
    (hoy : Hoy) (bpr : Bpr) (building_thermal_prop : BuildingThermalProp)
    (setpoints : Setpoints) : M unit :=
  let theta_m_prev := VNone in
  let theta_e := VNone in
  let m_ve_mech := VNone in
  let m_ve_window := VNone in
  let m_ve_leakage := VNone in
  let temp_ve_mech := VNone in
  let phi_m := VNone in
  let phi_ia := VNone in
  let phi_st := VNone in
  let c_m := VNone in
  let h_tr_em := VNone in
  let h_tr_w := VNone in
  let h_ve_adj := VNone in
  let h_tr_ms := VNone in
  let h_tr_is := VNone in
  h_tr_1 <- pure (calc_h_tr_1 h_ve_adj h_tr_is) ;;
  h_tr_2 <- pure (calc_h_tr_2 h_tr_1 h_tr_w) ;;
  h_tr_3 <- pure (calc_h_tr_3 h_tr_2 h_tr_ms) ;;
  procedure_1_branches hoy bpr building_thermal_prop setpoints.

End WithControl.

End WithSolver.
End Resolver.

(** The module's functions, with the solver name bound as in the source. *)
Definition has_heating_demand (py : dialect) :=
  Resolver.has_heating_demand py calc_temperatures_crank_nicholson.
Definition has_cooling_demand (py : dialect) :=
  Resolver.has_cooling_demand py calc_temperatures_crank_nicholson.
Definition calc_phi_hc_ac (py : dialect) :=
  Resolver.calc_phi_hc_ac py calc_temperatures_crank_nicholson.
Definition procedure_1 (py : dialect) {Hoy Bpr : Type}
    (control : Control Hoy Bpr) :=
  Resolver.procedure_1 py calc_temperatures_crank_nicholson control.

(** ** Reference data *)

(** The zone of the design document's concrete scenario, with the derived
    conductances that [calc_h_tr_1], [calc_h_tr_2], [calc_h_tr_3] give for
    it. *)
Definition scenario : BuildingThermalProp := {|
  phi_m := 0;
  h_tr_em := 20;
  theta_e := 5;
  h_tr_3 := 100 # 9;
  phi_st := 0;
  h_tr_w := 10;
  h_tr_1 := 10;
  phi_ia := 0;
  h_ve_adj := 15;
  h_tr_2 := 20;
  theta_m_prev := 20;
  c_m := 18000000;
  h_tr_ms := 25;
  h_tr_is := 30
|}.

(** A parameter set is valid when the five conductances and the
    capacitance are strictly positive and the derived conductances are the
    ones the formulas C.6 to C.8 give. *)
Definition valid_parameters (bp : BuildingThermalProp) : Prop :=
  0 < h_tr_em bp /\ 0 < h_tr_w bp /\ 0 < h_ve_adj bp /\ 0 < h_tr_ms bp /\
  0 < h_tr_is bp /\ 0 < c_m bp /\
  h_tr_1 bp == 1 / (1 / h_ve_adj bp + 1 / h_tr_is bp) /\
  h_tr_2 bp == h_tr_1 bp + h_tr_w bp /\
  h_tr_3 bp == 1 / (1 / h_tr_2 bp + 1 / h_tr_ms bp).

(** Following the spec's words (section 4.1, step 3): the new mass
    temperature, with an explicit product. *)
Definition spec_theta_m_t (theta_m_prev c_m h_tr_3 h_tr_em phi_m_tot : Q) : Q :=
  theta_m_prev * ((c_m / 3600) - 0.5 * (h_tr_3 + h_tr_em))
  + phi_m_tot / ((c_m / 3600) + 0.5 * (h_tr_3 + h_tr_em)).

(** The parameter set of the scenario with the ventilation conductance
    set to zero. *)
Definition zero_ventilation : BuildingThermalProp := {|
  phi_m := 0;
  h_tr_em := 20;
  theta_e := 5;
  h_tr_3 := 50 # 7;
  phi_st := 0;
  h_tr_w := 10;
  h_tr_1 := 0;
  phi_ia := 0;
  h_ve_adj := 0;
  h_tr_2 := 10;
  theta_m_prev := 20;
  c_m := 18000000;
  h_tr_ms := 25;
  h_tr_is := 30
|}.

(** The parameter set of the scenario with a negative capacitance and
    negative conductances to the outside. *)
Definition non_physical : BuildingThermalProp := {|
  phi_m := 0;
  h_tr_em := -20;
  theta_e := 5;
  h_tr_3 := 100 # 9;
  phi_st := 0;
  h_tr_w := -10;
  h_tr_1 := 10;
  phi_ia := 0;
  h_ve_adj := 15;
  h_tr_2 := 20;
  theta_m_prev := 20;
  c_m := -18000000;
  h_tr_ms := 25;
  h_tr_is := 30
|}.

(** A caller's configuration with both setpoints present, and one with
    both absent. *)
Definition setpoints_absent : Setpoints :=
  {| theta_heat_set := VNone; theta_cool_set := VNone |}.

Definition setpoints_20_26 : Setpoints :=
  {| theta_heat_set := VNum 20; theta_cool_set := VNum 26 |}.

(** A control collaborator for a zone with an active radiative system. *)
Definition radiative_control : Control Z unit := {|
  is_heating_active := fun _ _ => true;
  heating_system_is_ac := fun _ => false;
  heating_system_is_radiative := fun _ => true;
  is_cooling_active := fun _ _ => true;
  cooling_system_is_ac := fun _ => false;
  cooling_system_is_radiative := fun _ => true
|}.

(** Stand-ins for the solver name, used to exercise the resolver
    independently of the solver's own body: an affine response of the air
    temperature to the power, and a response that ignores the power. *)
Definition affine_model (a b : Q) (phi_hc_nd : value)
    (_ : BuildingThermalProp) : result temperatures :=
  match phi_hc_nd with
  | VNum p => Ret (VNum 0, VNum (a + b * p), VNum 0)
  | VNone => Raise TypeError
  end.

Definition insensitive_model (t : Q) : value -> BuildingThermalProp ->
    result temperatures :=
  affine_model t 0.

(** ** Properties *)

(** *** The formulas, one by one *)

Ltac py_unfold :=
  cbv [calc_theta_m_t calc_phi_m_tot calc_h_tr_1 calc_h_tr_2 calc_h_tr_3
       calc_theta_m calc_theta_s calc_theta_air calc_theta_op
       calc_phi_hc_nd_un lift2 bind eval add sub mul div call le lt ge gt].

Lemma Qeq_bool_false (x : Q) : ~ x == 0 -> Qeq_bool x 0 = false.
Proof.
  intro H. destruct (Qeq_bool x 0) eqn:E; [|reflexivity].
  apply Qeq_bool_eq in E. contradiction.
Qed.

Lemma Qeq_bool_true (x : Q) : x == 0 -> Qeq_bool x 0 = true.
Proof. intro H. apply Qeq_bool_iff. exact H. Qed.

(** Whatever its arguments, the mass-temperature update raises
    [TypeError]: either an operand is [None], or [theta_m_prev] is
    called. *)
Lemma calc_theta_m_t_raises (theta_m_prev c_m h_tr_3 h_tr_em phi_m_tot : value) :
  calc_theta_m_t theta_m_prev c_m h_tr_3 h_tr_em phi_m_tot = Raise TypeError.
Proof.
  destruct c_m as [|c]; [reflexivity|].
  destruct h_tr_3 as [|h3]; [reflexivity|].
  destruct h_tr_em as [|hem]; reflexivity.
Qed.

(** The heat flow C.5 as a number, when no divisor is zero. *)
Lemma calc_phi_m_tot_value
    (phi_m h_tr_em theta_e h_tr_3 phi_st h_tr_w h_tr_1 phi_ia p h_ve_adj
     h_tr_2 : Q) :
  ~ h_ve_adj == 0 -> ~ h_tr_2 == 0 ->
  calc_phi_m_tot (VNum phi_m) (VNum h_tr_em) (VNum theta_e) (VNum h_tr_3)
    (VNum phi_st) (VNum h_tr_w) (VNum h_tr_1) (VNum phi_ia) (VNum p)
    (VNum h_ve_adj) (VNum h_tr_2)
  = Ret (VNum (phi_m + h_tr_em * theta_e +
               h_tr_3 * (phi_st + h_tr_w * theta_e +
                         h_tr_1 * ((phi_ia + p) / h_ve_adj + theta_e))
               / h_tr_2)).
Proof.
  intros Hve H2. py_unfold.
  rewrite (Qeq_bool_false _ Hve), (Qeq_bool_false _ H2). reflexivity.
Qed.

(** The solver never returns: a zero [h_ve_adj] or [h_tr_2] stops it in
    C.5 with [ZeroDivisionError], and otherwise C.4 raises [TypeError]. *)
Lemma solver_outcome (p : Q) (bp : BuildingThermalProp) :
  calc_temperatures_crank_nicholson (VNum p) bp
  = Raise (if Qeq_bool (h_ve_adj bp) 0 || Qeq_bool (h_tr_2 bp) 0
           then ZeroDivisionError else TypeError).
Proof.
  unfold calc_temperatures_crank_nicholson.
  destruct (Qeq_bool (h_ve_adj bp) 0) eqn:Eve.
  - py_unfold. rewrite Eve. reflexivity.
  - destruct (Qeq_bool (h_tr_2 bp) 0) eqn:E2.
    + py_unfold. rewrite Eve, E2. reflexivity.
    + rewrite calc_phi_m_tot_value.
      * cbv [bind]. rewrite calc_theta_m_t_raises. reflexivity.
      * intro H. apply Qeq_bool_true in H. congruence.
      * intro H. apply Qeq_bool_true in H. congruence.
Qed.

Lemma valid_parameters_nonzero (bp : BuildingThermalProp) :
  valid_parameters bp -> 0 < h_ve_adj bp /\ 0 < h_tr_2 bp.
Proof.
  intros (Hem & Hw & Hve & Hms & His & Hcm & E1 & E2 & E3).
  split; [exact Hve|].
  assert (H1 : 0 < h_tr_1 bp).
  { rewrite E1. unfold Qdiv. rewrite Qmult_1_l.
    apply Qinv_lt_0_compat.
    assert (0 < / h_ve_adj bp) by (apply Qinv_lt_0_compat; exact Hve).
    assert (0 < / h_tr_is bp) by (apply Qinv_lt_0_compat; exact His).
    rewrite !Qmult_1_l. lra. }
  rewrite E2. lra.
Qed.

(** On a valid parameter set the solver raises [TypeError] at every
    power. *)
Lemma solver_raises_TypeError (p : Q) (bp : BuildingThermalProp) :
  valid_parameters bp ->
  calc_temperatures_crank_nicholson (VNum p) bp = Raise TypeError.
Proof.
  intro Hv. destruct (valid_parameters_nonzero bp Hv) as [Hve H2].
  rewrite solver_outcome.
  rewrite (Qeq_bool_false (h_ve_adj bp)), (Qeq_bool_false (h_tr_2 bp));
    [reflexivity| |]; intro H; rewrite H in *;
    match goal with h : 0 < 0 |- _ => exact (Qlt_irrefl 0 h) end.
Qed.

(** On any parameter set the solver raises one of the two built-in
    exceptions. *)
Lemma solver_exception (p : Q) (bp : BuildingThermalProp) :
  exists e, calc_temperatures_crank_nicholson (VNum p) bp = Raise e
            /\ (e = TypeError \/ e = ZeroDivisionError).
Proof.
  rewrite solver_outcome. eexists. split; [reflexivity|].
  destruct (_ || _); auto.
Qed.

Lemma scenario_valid : valid_parameters scenario.
Proof. repeat split; vm_compute; reflexivity. Qed.

(** *** The trace monad *)




Lemma bindM_Ret {A B : Type} (tr : list event) (a : A) (k : A -> M B) :
  bindM (tr, Ret a) k = (tr ++ events (k a), outcome (k a)).
Proof. simpl. destruct (k a). reflexivity. Qed.

Lemma bindM_pure {A B : Type} (a : A) (k : A -> M B) :
  bindM (pure (Ret a)) k = k a.
Proof. unfold pure. rewrite bindM_Ret. destruct (k a). reflexivity. Qed.

(** *** The capacity clamp *)

Section Clamp.

Variable py : dialect.
Variables phi_c_max phi_hc_nd_un phi_h_max : Q.

(** On numbers the chain of comparisons always picks the unrestricted
    power or one of the two bounds: the last [else] is never taken. *)
Lemma clamp_phi_hc_nd_value :
  Resolver.clamp_phi_hc_nd py (VNum phi_c_max) (VNum phi_hc_nd_un)
    (VNum phi_h_max)
  = ret (VNum (if Qle_bool phi_c_max phi_hc_nd_un
                  && Qle_bool phi_hc_nd_un phi_h_max
               then phi_hc_nd_un
               else if Qle_bool phi_hc_nd_un phi_h_max
                    then phi_c_max else phi_h_max)).
Proof.
  unfold Resolver.clamp_phi_hc_nd, gt, lt, le, pure, ret, bindM.
  destruct (Qle_bool phi_c_max phi_hc_nd_un);
    destruct (Qle_bool phi_hc_nd_un phi_h_max); reflexivity.
Qed.

Lemma clamp_within :
  phi_c_max <= phi_hc_nd_un -> phi_hc_nd_un <= phi_h_max ->
  Resolver.clamp_phi_hc_nd py (VNum phi_c_max) (VNum phi_hc_nd_un)
    (VNum phi_h_max) = ret (VNum phi_hc_nd_un).
Proof.
  intros H1 H2. rewrite clamp_phi_hc_nd_value.
  apply Qle_bool_iff in H1, H2. now rewrite H1, H2.
Qed.

Lemma clamp_above :
  phi_h_max < phi_hc_nd_un ->
  Resolver.clamp_phi_hc_nd py (VNum phi_c_max) (VNum phi_hc_nd_un)
    (VNum phi_h_max) = ret (VNum phi_h_max).
Proof.
  intros H. rewrite clamp_phi_hc_nd_value.
  assert (E : Qle_bool phi_hc_nd_un phi_h_max = false).
  { destruct (Qle_bool phi_hc_nd_un phi_h_max) eqn:E; [|reflexivity].
    apply Qle_bool_iff in E. lra. }
  rewrite E, andb_false_r. reflexivity.
Qed.

Lemma clamp_below :
  phi_c_max <= phi_h_max -> phi_hc_nd_un < phi_c_max ->
  Resolver.clamp_phi_hc_nd py (VNum phi_c_max) (VNum phi_hc_nd_un)
    (VNum phi_h_max) = ret (VNum phi_c_max).
Proof.
  intros Hb H. rewrite clamp_phi_hc_nd_value.
  assert (E1 : Qle_bool phi_c_max phi_hc_nd_un = false).
  { destruct (Qle_bool phi_c_max phi_hc_nd_un) eqn:E; [|reflexivity].
    apply Qle_bool_iff in E. lra. }
  assert (E2 : Qle_bool phi_hc_nd_un phi_h_max = true).
  { apply Qle_bool_iff. lra. }
  rewrite E1, E2. reflexivity.
Qed.

End Clamp.


(** *** The resolver over an arbitrary solver *)

Section ResolverFacts.

Variable py : dialect.
Variable rc_model : value -> BuildingThermalProp -> result temperatures.
Variable bp : BuildingThermalProp.



(** The body of [calc_phi_hc_ac] with its constants folded. *)
Lemma calc_phi_hc_ac_eq :
  Resolver.calc_phi_hc_ac py rc_model bp
  = bindM (Resolver.solve rc_model (VNum 0) bp) (fun t0 =>
    bindM (pure (Ret (VNum 1000))) (fun phi_hc_nd_10 =>
    bindM (Resolver.solve rc_model phi_hc_nd_10 bp) (fun t10 =>
    bindM (pure (calc_phi_hc_nd_un phi_hc_nd_10 (VNum 20) (item1 t0) (item1 t10)))
      (fun un =>
    bindM (Resolver.clamp_phi_hc_nd py (VNum 100) un (VNum 100)) (fun ac =>
    bindM (Resolver.solve rc_model ac bp) (fun t =>
    ret (item0 t, item1 t, item2 t, ac))))))).
Proof. reflexivity. Qed.


(** When the probe and the free-floating evaluation return the same air
    temperature, the interpolation C.13 divides by zero. *)
Lemma calc_phi_hc_ac_insensitive (r0 r1 : temperatures) (t0 t1 : Q) :
  rc_model (VNum 0) bp = Ret r0 -> rc_model (VNum 1000) bp = Ret r1 ->
  item1 r0 = VNum t0 -> item1 r1 = VNum t1 -> t1 == t0 ->
  Resolver.calc_phi_hc_ac py rc_model bp
  = ([Solve (VNum 0); Solve (VNum 1000)], Raise ZeroDivisionError).
Proof.
  intros H0 H1 E0 E1 Heq.
  rewrite calc_phi_hc_ac_eq. unfold Resolver.solve.
  rewrite H0, bindM_Ret, bindM_pure, H1, bindM_Ret, E0, E1.
  unfold calc_phi_hc_nd_un. cbv [lift2 bind eval mul sub div pure].
  rewrite (Qeq_bool_true (t1 - t0)) by (rewrite Heq; ring).
  reflexivity.
Qed.

End ResolverFacts.

Section ProcedureFacts.

Variable py : dialect.
Variable rc_model : value -> BuildingThermalProp -> result temperatures.
Context {Hoy Bpr : Type}.
Variable control : Control Hoy Bpr.
Variables (hoy : Hoy) (bpr : Bpr) (bp : BuildingThermalProp) (sp : Setpoints).

(** [procedure_1] stops at its first computation: [1/None]. *)
Lemma procedure_1_raises :
  Resolver.procedure_1 py rc_model control hoy bpr bp sp = ([], Raise TypeError).
Proof. reflexivity. Qed.

End ProcedureFacts.

(** *** What the parts do when the solver name is bound to a function that
    returns *)

(** The air-node balance C.11 is affine in the injected power. *)
Lemma calc_theta_air_affine (h_tr_is theta_s h_ve_adj theta_e phi_ia p : Q) :
  ~ h_tr_is + h_ve_adj == 0 ->
  calc_theta_air (VNum h_tr_is) (VNum theta_s) (VNum h_ve_adj) (VNum theta_e)
    (VNum phi_ia) (VNum p)
  = Ret (VNum ((h_tr_is * theta_s + h_ve_adj * theta_e + phi_ia + p)
               / (h_tr_is + h_ve_adj))).
Proof.
  intro H. py_unfold. now rewrite (Qeq_bool_false _ H).
Qed.

(** Between any two distinct powers the slope of C.11 is the same,
    [1 / (h_tr_is + h_ve_adj)], for a fixed surface temperature. *)
Lemma calc_theta_air_slope (h_tr_is theta_s h_ve_adj theta_e phi_ia p1 p2 : Q) :
  ~ h_tr_is + h_ve_adj == 0 -> ~ p2 - p1 == 0 ->
  exists t1 t2 : Q,
    calc_theta_air (VNum h_tr_is) (VNum theta_s) (VNum h_ve_adj)
      (VNum theta_e) (VNum phi_ia) (VNum p1) = Ret (VNum t1)
    /\ calc_theta_air (VNum h_tr_is) (VNum theta_s) (VNum h_ve_adj)
         (VNum theta_e) (VNum phi_ia) (VNum p2) = Ret (VNum t2)
    /\ (t2 - t1) / (p2 - p1) == 1 / (h_tr_is + h_ve_adj).
Proof.
  intros Hd Hp. do 2 eexists.
  split; [apply calc_theta_air_affine; exact Hd|].
  split; [apply calc_theta_air_affine; exact Hd|].
  field. split; assumption.
Qed.

(** With an affine air temperature of non-zero slope whose unrestricted
    power is the literal capacity 100, [calc_phi_hc_ac] makes its three
    evaluations and ends on the literal setpoint 20. *)
Lemma affine_model_reaches_setpoint (py : dialect) (a b : Q)
    (bp : BuildingThermalProp) :
  ~ b == 0 -> 20 - a == 100 * b ->
  exists ac air : Q,
    Resolver.calc_phi_hc_ac py (affine_model a b) bp
    = ([Solve (VNum 0); Solve (VNum 1000); Solve (VNum ac)],
       Ret (VNum 0, VNum air, VNum 0, VNum ac))
    /\ ac == 100 /\ air == 20.
Proof.
  intros Hb Ha.
  assert (Ea : a == 20 - 100 * b) by lra.
  set (un := 1000 * (20 - (a + b * 0)) / (a + b * 1000 - (a + b * 0))).
  assert (Hun : un == 100).
  { unfold un. rewrite Ea. field. intro H. apply Hb. lra. }
  exists un, (a + b * un). split; [|split; [exact Hun|rewrite Hun; lra]].
  rewrite calc_phi_hc_ac_eq. unfold Resolver.solve.
  cbn [affine_model]. rewrite bindM_Ret, bindM_pure.
  cbn [affine_model]. rewrite bindM_Ret.
  cbv [item1 fst snd].
  assert (Eun : calc_phi_hc_nd_un (VNum 1000) (VNum 20) (VNum (a + b * 0))
                  (VNum (a + b * 1000)) = Ret (VNum un)).
  { py_unfold. rewrite Qeq_bool_false; [reflexivity|].
    intro H. apply Hb. lra. }
  rewrite Eun, bindM_pure.
  rewrite clamp_within by (rewrite Hun; lra).
  unfold ret at 1. rewrite bindM_Ret.
  cbn [affine_model]. rewrite bindM_Ret.
  reflexivity.
Qed.

(** ** The claims *)

(** C1 (defect in the code).  The claim: the new mass temperature is
    [theta_m_prev] multiplied by [(c_m/3600) - 0.5*(h_tr_3+h_tr_em)], plus
    [phi_m_tot / ((c_m/3600) + 0.5*(h_tr_3+h_tr_em))], the product being an
    explicit multiplication.  The code applies [theta_m_prev] as a
    function: on numbers [calc_theta_m_t] raises [TypeError] and never
    yields the value of the formula, and the solver raises with it, at
    every power, on the zone of the reference scenario. *)
Theorem theta_m_prev_is_called_not_multiplied :
  forall theta_m_prev c_m h_tr_3 h_tr_em phi_m_tot p : Q,
    calc_theta_m_t (VNum theta_m_prev) (VNum c_m) (VNum h_tr_3)
      (VNum h_tr_em) (VNum phi_m_tot) = Raise TypeError
    /\ calc_theta_m_t (VNum theta_m_prev) (VNum c_m) (VNum h_tr_3)
         (VNum h_tr_em) (VNum phi_m_tot)
       <> Ret (VNum (spec_theta_m_t theta_m_prev c_m h_tr_3 h_tr_em
                       phi_m_tot))
    /\ calc_temperatures_crank_nicholson (VNum p) scenario = Raise TypeError.
Proof.
  intros. rewrite calc_theta_m_t_raises.
  split; [reflexivity|]. split; [discriminate|].
  apply solver_raises_TypeError, scenario_valid.
Qed.

(** C2 (defect in the code).  The claim: when the free-floating air
    temperature lies between the two setpoints, the resolver returns
    [phi_hc_nd = 0] with the result of that single evaluation.  The code:
    [procedure_1] raises [TypeError] on every input before any solver
    evaluation, whatever function the solver name is bound to, because it
    computes [1/None]; its branches, entered directly, stop at the first
    demand check with the solver's exception. *)
Theorem procedure_1_returns_no_state :
  forall (py : dialect) (Hoy Bpr : Type) (control : Control Hoy Bpr)
         (hoy : Hoy) (bpr : Bpr) (bp : BuildingThermalProp) (sp : Setpoints),
    procedure_1 py control hoy bpr bp sp = ([], Raise TypeError)
    /\ (forall rc_model,
          Resolver.procedure_1 py rc_model control hoy bpr bp sp
          = ([], Raise TypeError))
    /\ exists e,
         Resolver.procedure_1_branches py calc_temperatures_crank_nicholson
           control hoy bpr bp sp = ([Solve (VNum 0)], Raise e).
Proof.
  intros. split; [reflexivity|]. split; [reflexivity|].
  eexists. unfold Resolver.procedure_1_branches, Resolver.has_heating_demand,
    Resolver.solve.
  rewrite solver_outcome. reflexivity.
Qed.

(** C3 (defect in the code).  The claim: when the unrestricted power lies
    within the capacities, the resolver delivers it, evaluates the solver
    once more and ends on the setpoint.  The code: on every valid
    parameter set [calc_phi_hc_ac] stops at its first solver evaluation,
    the one at zero power, with [TypeError]; no unrestricted power is
    computed. *)
Theorem calc_phi_hc_ac_stops_at_free_float :
  forall (py : dialect) (bp : BuildingThermalProp),
    valid_parameters bp ->
    calc_phi_hc_ac py bp = ([Solve (VNum 0)], Raise TypeError).
Proof.
  intros py bp Hv. unfold calc_phi_hc_ac.
  rewrite calc_phi_hc_ac_eq. unfold Resolver.solve.
  now rewrite (solver_raises_TypeError 0 bp Hv).
Qed.

Lemma calc_phi_hc_ac_stops_at_free_float_witness :
  valid_parameters scenario
  /\ calc_phi_hc_ac Python3 scenario = ([Solve (VNum 0)], Raise TypeError).
Proof.
  assert (H : valid_parameters scenario)
    by (repeat split; vm_compute; reflexivity).
  split; [exact H|].
  exact (calc_phi_hc_ac_stops_at_free_float Python3 scenario H).
Defined.



(** C5 (defect in the code).  The claim: for a fixed valid parameter set
    the air temperature returned by the solver is affine in the injected
    power, so that the slopes between any three powers agree.  The code:
    on a valid parameter set the solver returns no air temperature at any
    of three powers; each evaluation raises [TypeError]. *)
Theorem solver_returns_no_air_temperature :
  forall (bp : BuildingThermalProp) (p1 p2 p3 : Q),
    valid_parameters bp ->
    calc_temperatures_crank_nicholson (VNum p1) bp = Raise TypeError
    /\ calc_temperatures_crank_nicholson (VNum p2) bp = Raise TypeError
    /\ calc_temperatures_crank_nicholson (VNum p3) bp = Raise TypeError.
Proof.
  intros bp p1 p2 p3 Hv.
  repeat split; apply solver_raises_TypeError; exact Hv.
Qed.

Lemma solver_returns_no_air_temperature_witness :
  valid_parameters scenario
  /\ calc_temperatures_crank_nicholson (VNum 0) scenario = Raise TypeError
  /\ calc_temperatures_crank_nicholson (VNum 500) scenario = Raise TypeError
  /\ calc_temperatures_crank_nicholson (VNum 1000) scenario = Raise TypeError.
Proof.
  assert (H : valid_parameters scenario)
    by (repeat split; vm_compute; reflexivity).
  split; [exact H|].
  exact (solver_returns_no_air_temperature scenario 0 500 1000 H).
Defined.

(** C6 (counterexample).  With a probe air temperature equal to the
    free-floating one (both 10), the interpolation C.13 performs the
    division and fails with [ZeroDivisionError], not [DegenerateNetwork];
    so does [calc_phi_hc_ac] when the solver name is bound to a function
    whose air temperature ignores the power. *)
Lemma degenerate_probe_is_not_DegenerateNetwork :
  calc_phi_hc_nd_un (VNum 1000) (VNum 20) (VNum 10) (VNum 10)
  = Raise ZeroDivisionError
  /\ calc_phi_hc_nd_un (VNum 1000) (VNum 20) (VNum 10) (VNum 10)
     <> Raise DegenerateNetwork
  /\ outcome (Resolver.calc_phi_hc_ac Python3 (insensitive_model 10) scenario)
     <> Raise DegenerateNetwork.
Proof.
  split; [reflexivity|]. split; vm_compute; discriminate.
Qed.

(** C6 (amended).  Whenever the evaluations at zero power and at the
    probe power 1000 return the same air temperature, the interpolation
    C.13 divides by zero: [calc_phi_hc_nd_un] fails with
    [ZeroDivisionError], and [calc_phi_hc_ac] fails with it after exactly
    these two solver evaluations. *)
Theorem degenerate_probe_divides_by_zero :
  forall (py : dialect)
         (rc_model : value -> BuildingThermalProp -> result temperatures)
         (bp : BuildingThermalProp) (r0 r1 : temperatures) (t0 t1 s : Q),
    rc_model (VNum 0) bp = Ret r0 ->
    rc_model (VNum 1000) bp = Ret r1 ->
    item1 r0 = VNum t0 ->
    item1 r1 = VNum t1 ->
    t1 == t0 ->
    calc_phi_hc_nd_un (VNum 1000) (VNum s) (VNum t0) (VNum t1)
    = Raise ZeroDivisionError
    /\ Resolver.calc_phi_hc_ac py rc_model bp
       = ([Solve (VNum 0); Solve (VNum 1000)], Raise ZeroDivisionError).
Proof.
  intros py rc_model bp r0 r1 t0 t1 s H0 H1 E0 E1 Heq. split.
  - py_unfold. rewrite (Qeq_bool_true (t1 - t0)) by (rewrite Heq; ring).
    reflexivity.
  - exact (calc_phi_hc_ac_insensitive py rc_model bp r0 r1 t0 t1
             H0 H1 E0 E1 Heq).
Qed.

Lemma degenerate_probe_divides_by_zero_witness :
  calc_phi_hc_nd_un (VNum 1000) (VNum 20) (VNum 10) (VNum 10)
  = Raise ZeroDivisionError
  /\ Resolver.calc_phi_hc_ac Python3 (insensitive_model 10) scenario
     = ([Solve (VNum 0); Solve (VNum 1000)], Raise ZeroDivisionError).
Proof.
  apply (degenerate_probe_divides_by_zero Python3 (insensitive_model 10)
           scenario (VNum 0, VNum 10, VNum 0) (VNum 0, VNum 10, VNum 0)
           10 10 20); reflexivity.
Defined.

(** The formula C.6 applies no sign check: a negative ventilation
    conductance yields a negative derived conductance. *)
Example calc_h_tr_1_accepts_negative :
  calc_h_tr_1 (VNum (-1)) (VNum 2) = Ret (VNum (1 / (1 / -1 + 1 / 2))).
Proof. reflexivity. Qed.

(** C7 (counterexample).  On a parameter set whose ventilation
    conductance is zero the solver fails with [ZeroDivisionError], not
    with [InvalidParameters]. *)
Lemma zero_conductance_is_not_InvalidParameters :
  calc_temperatures_crank_nicholson (VNum 0) zero_ventilation
  = Raise ZeroDivisionError
  /\ calc_temperatures_crank_nicholson (VNum 0) zero_ventilation
     <> Raise InvalidParameters.
Proof. split; [reflexivity|]. vm_compute. discriminate. Qed.

(** C7 (amended).  The solver validates nothing and never fails with
    [InvalidParameters] or [InvalidPower]: for every parameter set,
    negative or zero conductances and capacitance included, and every
    power, its outcome is neither of the two.  When the ventilation
    conductance [h_ve_adj] or the derived conductance [h_tr_2] is zero, it
    fails with [ZeroDivisionError], raised by the division in C.5, and
    returns no result. *)
Theorem solver_validates_nothing :
  forall (bp bp' : BuildingThermalProp) (p p' : Q),
    h_ve_adj bp == 0 \/ h_tr_2 bp == 0 ->
    calc_temperatures_crank_nicholson (VNum p) bp = Raise ZeroDivisionError
    /\ calc_temperatures_crank_nicholson (VNum p') bp'
       <> Raise InvalidParameters
    /\ calc_temperatures_crank_nicholson (VNum p') bp' <> Raise InvalidPower.
Proof.
  intros bp bp' p p' H. split.
  - rewrite solver_outcome.
    destruct H as [H|H]; rewrite (Qeq_bool_true _ H);
      rewrite ?orb_true_r; reflexivity.
  - rewrite solver_outcome.
    destruct (_ || _); split; discriminate.
Qed.

Lemma solver_validates_nothing_witness :
  (h_ve_adj zero_ventilation == 0 \/ h_tr_2 zero_ventilation == 0)
  /\ calc_temperatures_crank_nicholson (VNum 250) zero_ventilation
     = Raise ZeroDivisionError
  /\ calc_temperatures_crank_nicholson (VNum 250) non_physical
     <> Raise InvalidParameters
  /\ calc_temperatures_crank_nicholson (VNum 250) non_physical
     <> Raise InvalidPower.
Proof.
  assert (H : h_ve_adj zero_ventilation == 0 \/ h_tr_2 zero_ventilation == 0)
    by (left; reflexivity).
  split; [exact H|].
  exact (solver_validates_nothing zero_ventilation non_physical 250 250 H).
Defined.

(** C8 (defect in the code).  The claim: a timestep resolution evaluates
    the solver exactly once when there is no demand and exactly three
    times, at zero power, at the probe power and at the delivered power,
    when there is.  The code: [procedure_1] makes no solver evaluation on
    any input, because it raises [TypeError] first; and [calc_phi_hc_ac],
    which is written with the three evaluations the claim names, makes
    only the first, at zero power, and raises, on every parameter set. *)
Theorem no_run_completes_its_evaluations :
  forall (py : dialect) (Hoy Bpr : Type) (control : Control Hoy Bpr)
         (hoy : Hoy) (bpr : Bpr) (bp : BuildingThermalProp) (sp : Setpoints),
    evaluations (procedure_1 py control hoy bpr bp sp) = 0%nat
    /\ outcome (procedure_1 py control hoy bpr bp sp) = Raise TypeError
    /\ calls (calc_phi_hc_ac py bp) = [VNum 0]
    /\ exists e, outcome (calc_phi_hc_ac py bp) = Raise e.
Proof.
  intros. split; [reflexivity|]. split; [reflexivity|].
  destruct (solver_exception 0 bp) as (e & He & _).
  unfold calc_phi_hc_ac. rewrite calc_phi_hc_ac_eq. unfold Resolver.solve.
  rewrite He. split; [reflexivity|]. exists e. reflexivity.
Qed.

(** C9 (defect in the code).  The claim: the demand check and the clamp
    use only the caller's setpoints and capacities, and an absent
    setpoint is reported as [MissingSetpoint].  The code: the demand
    checks give the same outcome for every [setpoints] argument, present
    or absent, and none of the resolver functions ever raises
    [MissingSetpoint] or [MissingCapacity]; with the solver name bound to
    a function that returns an air temperature of 10, a caller's heating
    setpoint of 20 is not seen by the demand check (Python 2 reports no
    demand, Python 3 raises [TypeError]), and [calc_phi_hc_ac] works with
    the literals 20 and 100 for the setpoint and the capacities: where
    10 W would reach the setpoint it delivers 100 W. *)
Theorem setpoints_and_capacities_are_not_read :
  forall (py : dialect) (bp : BuildingThermalProp) (sp : Setpoints),
    has_heating_demand py bp sp = has_heating_demand py bp setpoints_absent
    /\ has_cooling_demand py bp sp = has_cooling_demand py bp setpoints_absent
    /\ outcome (has_heating_demand py bp sp) <> Raise MissingSetpoint
    /\ outcome (has_cooling_demand py bp sp) <> Raise MissingSetpoint
    /\ outcome (calc_phi_hc_ac py bp) <> Raise MissingSetpoint
    /\ outcome (calc_phi_hc_ac py bp) <> Raise MissingCapacity
    /\ Resolver.has_heating_demand Python2 (insensitive_model 10) bp
         setpoints_20_26 = ([Solve (VNum 0)], Ret (Some false))
    /\ Resolver.has_heating_demand Python3 (insensitive_model 10) bp
         setpoints_20_26 = ([Solve (VNum 0)], Raise TypeError)
    /\ Resolver.calc_phi_hc_ac py (affine_model 10 1) bp
       = ([Solve (VNum 0); Solve (VNum 1000); Solve (VNum 100)],
          Ret (VNum 0, VNum 110, VNum 0, VNum 100)).
Proof.
  intros py bp sp.
  destruct (solver_exception 0 bp) as (e & He & Hcases).
  assert (Hh : forall sp', has_heating_demand py bp sp'
                           = ([Solve (VNum 0)], Raise e)).
  { intro sp'. unfold has_heating_demand, Resolver.has_heating_demand,
      Resolver.solve. now rewrite He. }
  assert (Hc : forall sp', has_cooling_demand py bp sp'
                           = ([Solve (VNum 0)], Raise e)).
  { intro sp'. unfold has_cooling_demand, Resolver.has_cooling_demand,
      Resolver.solve. now rewrite He. }
  assert (Ha : calc_phi_hc_ac py bp = ([Solve (VNum 0)], Raise e)).
  { unfold calc_phi_hc_ac. rewrite calc_phi_hc_ac_eq. unfold Resolver.solve.
    now rewrite He. }
  rewrite !Hh, !Hc, Ha. cbn [outcome snd].
  repeat (split; [first [reflexivity
                        | destruct Hcases; subst e; discriminate]|]).
  destruct py; reflexivity.
Qed.



(** ** Further properties of the module *)

(** *** The derived conductances (C.6 to C.8) *)

Lemma div_num (x y : Q) :
  ~ y == 0 -> div (VNum x) (VNum y) = Ret (VNum (x / y)).
Proof. intro H. unfold div. now rewrite (Qeq_bool_false _ H). Qed.

Lemma div_zero (x y : Q) :
  y == 0 -> div (VNum x) (VNum y) = Raise ZeroDivisionError.
Proof. intro H. unfold div. now rewrite (Qeq_bool_true _ H). Qed.

(** X1.  The series combination C.6 / C.8 raises [ZeroDivisionError]
    when one of the two conductances is zero. *)
Theorem series_conductance_zero_division :
  forall a b : Q,
    a == 0 \/ b == 0 ->
    calc_h_tr_1 (VNum a) (VNum b) = Raise ZeroDivisionError
    /\ calc_h_tr_3 (VNum a) (VNum b) = Raise ZeroDivisionError.
Proof.
  intros a b H.
  assert (E : calc_h_tr_1 (VNum a) (VNum b) = Raise ZeroDivisionError).
  { unfold calc_h_tr_1. cbv [lift2 bind eval].
    destruct (Qeq_bool a 0) eqn:Ea.
    { apply Qeq_bool_eq in Ea. now rewrite (div_zero 1 a Ea). }
    assert (Ha : ~ a == 0) by (intro H0; apply Qeq_bool_true in H0; congruence).
    assert (Hb : b == 0) by tauto.
    now rewrite (div_num 1 a Ha), (div_zero 1 b Hb). }
  split; exact E.
Qed.

Lemma series_conductance_zero_division_witness :
  (15 == 0 \/ 0 == 0)
  /\ calc_h_tr_1 (VNum 15) (VNum 0) = Raise ZeroDivisionError
  /\ calc_h_tr_3 (VNum 15) (VNum 0) = Raise ZeroDivisionError.
Proof.
  assert (H : 15 == 0 \/ 0 == 0) by (right; reflexivity).
  split; [exact H|].
  exact (series_conductance_zero_division 15 0 H).
Defined.

(** *** The air node (C.11) *)

(** X7.  The air-node balance C.11 raises [ZeroDivisionError] when the
    two conductances at the air node are opposite numbers, whatever the
    temperatures, the gain and the power. *)
Theorem calc_theta_air_zero_division :
  forall h_tr_is theta_s h_ve_adj theta_e phi_ia phi_hc_nd : Q,
    h_tr_is + h_ve_adj == 0 ->
    calc_theta_air (VNum h_tr_is) (VNum theta_s) (VNum h_ve_adj)
      (VNum theta_e) (VNum phi_ia) (VNum phi_hc_nd)
    = Raise ZeroDivisionError.
Proof.
  intros is_ ts ve te pia p H. py_unfold.
  now rewrite (Qeq_bool_true _ H).
Qed.

Lemma calc_theta_air_zero_division_witness :
  30 + -30 == 0
  /\ calc_theta_air (VNum 30) (VNum 18) (VNum (-30)) (VNum 5) (VNum 0)
       (VNum 1000) = Raise ZeroDivisionError.
Proof.
  assert (H : 30 + -30 == 0) by reflexivity.
  split; [exact H|].
  exact (calc_theta_air_zero_division 30 18 (-30) 5 0 1000 H).
Defined.

(** *** The interpolation (C.13) *)

(** X12.  When the free-floating temperature is already the setpoint and
    the probes differ, the interpolation returns a zero power. *)
Theorem calc_phi_hc_nd_un_zero_at_setpoint :
  forall phi_hc_nd_10 theta_air_set theta_air_0 theta_air_10 : Q,
    ~ theta_air_10 - theta_air_0 == 0 -> theta_air_set == theta_air_0 ->
    exists un : Q,
      calc_phi_hc_nd_un (VNum phi_hc_nd_10) (VNum theta_air_set)
        (VNum theta_air_0) (VNum theta_air_10) = Ret (VNum un)
      /\ un == 0.
Proof.
  intros probe s t0 t1 Hd Hs.
  exists (probe * (s - t0) / (t1 - t0)). split.
  - py_unfold. now rewrite (Qeq_bool_false _ Hd).
  - rewrite Hs. field. exact Hd.
Qed.

Lemma calc_phi_hc_nd_un_zero_at_setpoint_witness :
  exists un : Q,
    calc_phi_hc_nd_un (VNum 1000) (VNum 20) (VNum 20) (VNum 25)
    = Ret (VNum un)
    /\ un == 0.
Proof.
  apply (calc_phi_hc_nd_un_zero_at_setpoint 1000 20 20 25);
    [intro H; vm_compute in H; discriminate H | reflexivity].
Defined.

(** *** The capacity clamp (lines 253 to 270) *)

(** X13.  On numbers the chain of comparisons never reaches its last
    [else]: for any bounds, in any order, it prints nothing and returns
    the unrestricted power or one of the two bounds. *)
Theorem clamp_never_falls_through :
  forall (py : dialect) (phi_c_max phi_hc_nd_un phi_h_max : Q),
    exists v : Q,
      Resolver.clamp_phi_hc_nd py (VNum phi_c_max) (VNum phi_hc_nd_un)
        (VNum phi_h_max) = ([], Ret (VNum v))
      /\ (v = phi_hc_nd_un \/ v = phi_h_max \/ v = phi_c_max).
Proof.
  intros py c un h. rewrite clamp_phi_hc_nd_value.
  eexists. split; [reflexivity|].
  destruct (Qle_bool c un), (Qle_bool un h); cbn; auto.
Qed.

(** X14.  With [phi_c_max <= phi_h_max] the chain is the clamp of the
    unrestricted power to the interval of the two bounds. *)
Theorem clamp_is_max_min :
  forall (py : dialect) (phi_c_max phi_hc_nd_un phi_h_max : Q),
    phi_c_max <= phi_h_max ->
    exists v : Q,
      Resolver.clamp_phi_hc_nd py (VNum phi_c_max) (VNum phi_hc_nd_un)
        (VNum phi_h_max) = ret (VNum v)
      /\ v == Qmax phi_c_max (Qmin phi_hc_nd_un phi_h_max).
Proof.
  intros py c un h Hb.
  destruct (Qlt_le_dec h un) as [Habove|Hle].
  - exists h. split; [apply clamp_above; exact Habove|].
    rewrite (Q.min_r un h) by lra. now rewrite (Q.max_r c h) by lra.
  - destruct (Qlt_le_dec un c) as [Hbelow|Hge].
    + exists c. split; [apply clamp_below; assumption|].
      rewrite (Q.min_l un h) by lra. now rewrite (Q.max_l c un) by lra.
    + exists un. split; [apply clamp_within; assumption|].
      rewrite (Q.min_l un h) by lra. now rewrite (Q.max_r c un) by lra.
Qed.

Lemma clamp_is_max_min_witness :
  exists v : Q,
    Resolver.clamp_phi_hc_nd Python3 (VNum (-2000)) (VNum 3500) (VNum 3000)
    = ret (VNum v)
    /\ v == Qmax (-2000) (Qmin 3500 3000).
Proof.
  apply (clamp_is_max_min Python3 (-2000) 3500 3000). discriminate.
Defined.

(** *** The demand checks *)

Section DemandFacts.

Variable py : dialect.
Variable rc_model : value -> BuildingThermalProp -> result temperatures.
Variable bp : BuildingThermalProp.
Variable sp : Setpoints.

Lemma has_heating_demand_cases :
  (exists e, Resolver.has_heating_demand py rc_model bp sp
             = ([Solve (VNum 0)], Raise e))
  \/ Resolver.has_heating_demand py rc_model bp sp
     = ([Solve (VNum 0)], Ret (Some false)).
Proof.
  unfold Resolver.has_heating_demand, Resolver.solve.
  destruct (rc_model (VNum 0) bp) as [t|e]; [|left; eexists; reflexivity].
  destruct py; [right; reflexivity|left; eexists; reflexivity].
Qed.

End DemandFacts.

(** X15.  The heating check never reports demand: whatever the dialect,
    the function the solver name is bound to, the parameters and the
    setpoints, it makes one evaluation at zero power and then either
    raises or returns [False]. *)
Theorem has_heating_demand_never_true :
  forall (py : dialect)
         (rc_model : value -> BuildingThermalProp -> result temperatures)
         (bp : BuildingThermalProp) (sp : Setpoints),
    (exists e, Resolver.has_heating_demand py rc_model bp sp
               = ([Solve (VNum 0)], Raise e))
    \/ Resolver.has_heating_demand py rc_model bp sp
       = ([Solve (VNum 0)], Ret (Some false)).
Proof. exact has_heating_demand_cases. Qed.

Lemma demand_checks_on_numeric_air
    (rc_model : value -> BuildingThermalProp -> result temperatures)
    (bp : BuildingThermalProp) (sp : Setpoints) (t : temperatures)
    (theta_air : Q) :
  rc_model (VNum 0) bp = Ret t ->
  item1 t = VNum theta_air ->
  Resolver.has_heating_demand Python2 rc_model bp sp
  = ([Solve (VNum 0)], Ret (Some false))
  /\ Resolver.has_cooling_demand Python2 rc_model bp sp
     = ([Solve (VNum 0)], Ret (Some true))
  /\ Resolver.has_heating_demand Python3 rc_model bp sp
     = ([Solve (VNum 0)], Raise TypeError)
  /\ Resolver.has_cooling_demand Python3 rc_model bp sp
     = ([Solve (VNum 0)], Raise TypeError).
Proof.
  intros Ht Hx.
  unfold Resolver.has_heating_demand, Resolver.has_cooling_demand,
    Resolver.solve.
  rewrite Ht, !bindM_Ret. cbv zeta. rewrite Hx.
  repeat split; reflexivity.
Qed.

(** X16.  When the free-floating evaluation returns a numeric air
    temperature, the demand checks do not depend on it: under Python 2
    ordering the heating check returns [False] and the cooling check
    [True]; under Python 3 both raise [TypeError]. *)
Theorem demand_checks_ignore_air_temperature :
  forall (rc_model : value -> BuildingThermalProp -> result temperatures)
         (bp : BuildingThermalProp) (sp : Setpoints) (t : temperatures)
         (theta_air : Q),
    rc_model (VNum 0) bp = Ret t ->
    item1 t = VNum theta_air ->
    Resolver.has_heating_demand Python2 rc_model bp sp
    = ([Solve (VNum 0)], Ret (Some false))
    /\ Resolver.has_cooling_demand Python2 rc_model bp sp
       = ([Solve (VNum 0)], Ret (Some true))
    /\ Resolver.has_heating_demand Python3 rc_model bp sp
       = ([Solve (VNum 0)], Raise TypeError)
    /\ Resolver.has_cooling_demand Python3 rc_model bp sp
       = ([Solve (VNum 0)], Raise TypeError).
Proof.
  intros rc_model bp sp t x Ht Hx.
  exact (demand_checks_on_numeric_air rc_model bp sp t x Ht Hx).
Qed.

Lemma demand_checks_ignore_air_temperature_witness :
  Resolver.has_heating_demand Python2 (insensitive_model 30) scenario
    setpoints_20_26 = ([Solve (VNum 0)], Ret (Some false))
  /\ Resolver.has_cooling_demand Python2 (insensitive_model 30) scenario
       setpoints_20_26 = ([Solve (VNum 0)], Ret (Some true))
  /\ Resolver.has_heating_demand Python3 (insensitive_model 30) scenario
       setpoints_20_26 = ([Solve (VNum 0)], Raise TypeError)
  /\ Resolver.has_cooling_demand Python3 (insensitive_model 30) scenario
       setpoints_20_26 = ([Solve (VNum 0)], Raise TypeError).
Proof.
  apply (demand_checks_ignore_air_temperature (insensitive_model 30)
           scenario setpoints_20_26 (VNum 0, VNum 30, VNum 0) 30);
    reflexivity.
Defined.

(** *** [calc_phi_hc_ac] and the solver *)

(** X22.  The solver returns on no input at all.  At a numeric power it
    raises [ZeroDivisionError] when [h_ve_adj] or [h_tr_2] is zero and
    [TypeError] otherwise; at the power [None] it raises [TypeError]. *)
Theorem solver_never_returns :
  forall (p : Q) (bp : BuildingThermalProp),
    calc_temperatures_crank_nicholson (VNum p) bp
    = Raise (if Qeq_bool (h_ve_adj bp) 0 || Qeq_bool (h_tr_2 bp) 0
             then ZeroDivisionError else TypeError)
    /\ calc_temperatures_crank_nicholson VNone bp = Raise TypeError.
Proof.
  intros p bp. split; [apply solver_outcome|reflexivity].
Qed.

